(** * SimpleMediaApp: the native greeting stub [native-lib.cpp]

    The repository's only native code is the JNI entry point

      Java_com_example_simplemediaapp_MainActivity_stringFromJNI

    which builds a [std::string] from the literal "Hello from C++" and hands
    its [c_str()] to [env->NewStringUTF].  The development below embeds

    - the C++ side: string literals as NUL-terminated [char] arrays, the
      [std::string(const char* )] constructor, [c_str()] and [size()];
    - the JNI side: object references, the function table behind [JNIEnv*],
      modified UTF-8 (the encoding [NewStringUTF] reads), UTF-16 strings and
      their standard UTF-8 encoding;
    - a reference Java VM implementing the function table, with a heap, a
      memory budget and a pending-exception slot;
    - a call recorder wrapping any function table;
    - the body of the entry point once more, statement by statement, as a
      transition function on its activation frame.

    and proves the properties of the entry point over them. *)

From Stdlib Require Import ZArith List Lia.
From Stdlib Require Import Strings.String Strings.Ascii Strings.Byte.
From stdpp Require Import base option list gmap.

Local Open Scope Z_scope.

(* ===================================================================== *)
(** ** The C++ side *)
(* ===================================================================== *)

Module Cxx.

(** A [char], by its value as an unsigned byte. *)
Definition char : Type := Z.

Definition NUL : char := 0.

Definition char_of_byte (b : Byte.byte) : char := Z.of_N (Byte.to_N b).

(** The characters between the quotes of a narrow string literal. *)
Definition literal_chars (s : string) : list char :=
  map char_of_byte (list_byte_of_string s).

(** A string literal denotes a [const char] array holding its characters
    followed by a terminating NUL. *)
Definition string_literal (s : string) : list char :=
  literal_chars s ++ [NUL].

(** The characters of a C string: everything before the first NUL. *)
Fixpoint until_nul (p : list char) : list char :=
  match p with
  | [] => []
  | c :: p' => if c =? NUL then [] else c :: until_nul p'
  end.

(** Whether the array holds a terminator at all; reading a C string from
    an array without one runs off its end. *)
Fixpoint nul_terminated (p : list char) : bool :=
  match p with
  | [] => false
  | c :: p' => (c =? NUL) || nul_terminated p'
  end.

Definition strlen (p : list char) : nat := length (until_nul p).

(** [std::string], by its contents (which may hold any [char]). *)
Definition std_string : Type := list char.

(** [std::string(const char* s)]: copies [strlen(s)] characters. *)
Definition basic_string (s : list char) : std_string := until_nul s.

Definition size (s : std_string) : nat := length s.

(** [c_str()]: the contents, with a NUL after the last character. *)
Definition c_str (s : std_string) : list char := s ++ [NUL].

End Cxx.

(* ===================================================================== *)
(** ** The JNI side *)
(* ===================================================================== *)

Module JNI.

Import Cxx.

(** [jchar]: an unsigned 16-bit UTF-16 code unit. *)
Definition jchar : Type := Z.

Definition loc : Type := positive.

(** Object references; [jstring] is a [jobject] in the C++ headers. *)
Inductive jobject : Type :=
| NULL
| Ref (l : loc).

Definition jstring : Type := jobject.
Definition jboolean : Type := bool.

Inductive jthrowable : Type :=
| OutOfMemoryError.

#[global] Instance jobject_eq_dec : EqDecision jobject.
Proof. solve_decision. Defined.

#[global] Instance jthrowable_eq_dec : EqDecision jthrowable.
Proof. solve_decision. Defined.

(** *** Modified UTF-8

    One byte for U+0001..U+007F, two bytes for U+0000 and
    U+0080..U+07FF, three bytes for U+0800..U+FFFF; supplementary
    characters travel as their two surrogates, three bytes each. *)

Definition is_continuation (b : char) : bool := Z.land b 0xC0 =? 0x80.

Fixpoint mutf8_decode (bs : list char) : option (list jchar) :=
  match bs with
  | [] => Some []
  | b1 :: bs1 =>
      if (0 <? b1) && (b1 <? 0x80) then
        cons b1 <$> mutf8_decode bs1
      else if Z.land b1 0xE0 =? 0xC0 then
        match bs1 with
        | b2 :: bs2 =>
            if is_continuation b2 then
              cons (Z.lor (Z.shiftl (Z.land b1 0x1F) 6) (Z.land b2 0x3F))
                <$> mutf8_decode bs2
            else None
        | [] => None
        end
      else if Z.land b1 0xF0 =? 0xE0 then
        match bs1 with
        | b2 :: b3 :: bs3 =>
            if is_continuation b2 && is_continuation b3 then
              cons (Z.lor (Z.shiftl (Z.land b1 0x0F) 12)
                      (Z.lor (Z.shiftl (Z.land b2 0x3F) 6) (Z.land b3 0x3F)))
                <$> mutf8_decode bs3
            else None
        | _ => None
        end
      else None
  end.

Definition mutf8_encode_char (c : jchar) : list char :=
  if (0 <? c) && (c <? 0x80) then [c]
  else if c <? 0x800 then
    [Z.lor 0xC0 (Z.shiftr c 6); Z.lor 0x80 (Z.land c 0x3F)]
  else
    [Z.lor 0xE0 (Z.shiftr c 12);
     Z.lor 0x80 (Z.land (Z.shiftr c 6) 0x3F);
     Z.lor 0x80 (Z.land c 0x3F)].

Definition mutf8_encode (cs : list jchar) : list char :=
  flat_map mutf8_encode_char cs.

(** *** Standard UTF-8 of a UTF-16 string *)

Definition is_high_surrogate (c : jchar) : bool :=
  (0xD800 <=? c) && (c <? 0xDC00).
Definition is_low_surrogate (c : jchar) : bool :=
  (0xDC00 <=? c) && (c <? 0xE000).

Fixpoint code_points (cs : list jchar) : list Z :=
  match cs with
  | [] => []
  | c :: cs1 =>
      match cs1 with
      | d :: cs2 =>
          if is_high_surrogate c && is_low_surrogate d then
            (0x10000 + (c - 0xD800) * 0x400 + (d - 0xDC00)) :: code_points cs2
          else c :: code_points cs1
      | [] => [c]
      end
  end.

Definition utf8_encode_code_point (c : Z) : list char :=
  if c <? 0x80 then [c]
  else if c <? 0x800 then
    [Z.lor 0xC0 (Z.shiftr c 6); Z.lor 0x80 (Z.land c 0x3F)]
  else if c <? 0x10000 then
    [Z.lor 0xE0 (Z.shiftr c 12);
     Z.lor 0x80 (Z.land (Z.shiftr c 6) 0x3F);
     Z.lor 0x80 (Z.land c 0x3F)]
  else
    [Z.lor 0xF0 (Z.shiftr c 18);
     Z.lor 0x80 (Z.land (Z.shiftr c 12) 0x3F);
     Z.lor 0x80 (Z.land (Z.shiftr c 6) 0x3F);
     Z.lor 0x80 (Z.land c 0x3F)].

Definition utf8_encode (cs : list jchar) : list char :=
  flat_map utf8_encode_code_point (code_points cs).

(** *** The function table

    [JNIEnv*] points at a table of functions that act on the state of the
    virtual machine behind it.  A call either is undefined by the JNI
    specification for its arguments ([None]) or returns a value and the
    next state.  The table is cut down to the string conversion the entry
    point calls and to the exception functions a native method would
    handle a failed conversion with. *)

Definition M (VM A : Type) : Type := VM -> option (A * VM).

Record JNIEnv (VM : Type) : Type := {
  NewStringUTF : list char -> M VM jstring;
  ExceptionCheck : M VM jboolean;
  ExceptionClear : M VM unit
}.

Arguments NewStringUTF {VM} _ _ _.
Arguments ExceptionCheck {VM} _ _.
Arguments ExceptionClear {VM} _ _.

(** What [NewStringUTF] requires of its argument: a NUL-terminated array
    whose characters form modified UTF-8. *)
Definition NewStringUTF_pre (bytes : list char) : bool :=
  nul_terminated bytes && bool_decide (is_Some (mutf8_decode (until_nul bytes))).

End JNI.

(* ===================================================================== *)
(** ** native-lib.cpp *)
(* ===================================================================== *)

Import Cxx JNI.

Definition Java_com_example_simplemediaapp_MainActivity_stringFromJNI
    {VM : Type} (env : JNIEnv VM) (this : jobject) : M VM jstring :=
  let hello : std_string := basic_string (string_literal "Hello from C++") in
  NewStringUTF env (c_str hello).

(** The value the local variable [hello] holds once it is initialised. *)
Definition hello : std_string :=
  basic_string (string_literal "Hello from C++").

(* ===================================================================== *)
(** ** A reference virtual machine behind [JNIEnv*] *)
(* ===================================================================== *)

Module RefVM.

(** What the heap holds: [java.lang.String]s, by their UTF-16 code units,
    and instances of other classes, by the class name (the activity whose
    method the entry point implements is one). *)
Inductive Object : Type :=
| JavaString (value : list jchar)
| Instance (class_name : string).

(** The machine: its heap, the number of code units it can still
    allocate for strings, and the exception pending in the current
    thread. *)
Record JavaVM : Type := {
  heap : gmap loc Object;
  free : nat;
  pending : option jthrowable
}.

(** Modelled from the spec: the string conversion of the bridging layer,
    which [<jni.h>] declares and the Java VM implements, neither of them in
    this repository.  The spec has it allocate the outgoing string afresh
    on every call and, when that allocation fails, report the failure as a
    null result by the layer's own convention.  The JNI convention for
    [NewStringUTF] is: a new [java.lang.String] built from the modified
    UTF-8 characters, or [NULL] with [OutOfMemoryError] thrown (left
    pending for the caller) when the string cannot be constructed.  The
    call is not defined on an array that is not a NUL-terminated modified
    UTF-8 string. *)
Definition NewStringUTF (bytes : list char) : M JavaVM jstring := fun vm =>
  if nul_terminated bytes then
    chars ← mutf8_decode (until_nul bytes);
    if decide (length chars ≤ free vm)%nat then
      let l := fresh (dom (heap vm)) in
      Some (Ref l,
            {| heap := <[l := JavaString chars]> (heap vm);
               free := (free vm - length chars)%nat;
               pending := pending vm |})
    else
      Some (NULL,
            {| heap := heap vm;
               free := free vm;
               pending := Some OutOfMemoryError |})
  else None.

(** Modelled from the spec: the bridging layer's own error reporting, as
    JNI has it.  [ExceptionCheck] tells whether an exception is pending and
    [ExceptionClear] drops it. *)
Definition ExceptionCheck : M JavaVM jboolean := fun vm =>
  Some (bool_decide (is_Some (pending vm)), vm).

Definition ExceptionClear : M JavaVM unit := fun vm =>
  Some (tt, {| heap := heap vm; free := free vm; pending := None |}).

Definition env : JNIEnv JavaVM := {|
  JNI.NewStringUTF := NewStringUTF;
  JNI.ExceptionCheck := ExceptionCheck;
  JNI.ExceptionClear := ExceptionClear
|}.

(** The text behind a reference, when it refers to a string. *)
Definition string_value (vm : JavaVM) (r : jobject) : option (list jchar) :=
  match r with
  | NULL => None
  | Ref l =>
      match heap vm !! l with
      | Some (JavaString v) => Some v
      | _ => None
      end
  end.

End RefVM.

(* ===================================================================== *)
(** ** Recording the calls made through a function table *)
(* ===================================================================== *)

Module Recorder.

Inductive JNICall : Type :=
| NewStringUTF_call (bytes : list char)
| ExceptionCheck_call
| ExceptionClear_call.

(** Run [m] on the machine and append [c] to the record. *)
Definition logged {VM A : Type} (c : JNICall) (m : M VM A)
    : M (VM * list JNICall) A := fun st =>
  '(r, vm') ← m st.1;
  Some (r, (vm', st.2 ++ [c])).

(** The same table, every function of which also records its call. *)
Definition recording {VM : Type} (env : JNIEnv VM)
    : JNIEnv (VM * list JNICall) := {|
  NewStringUTF bytes := logged (NewStringUTF_call bytes) (NewStringUTF env bytes);
  ExceptionCheck := logged ExceptionCheck_call (ExceptionCheck env);
  ExceptionClear := logged ExceptionClear_call (ExceptionClear env)
|}.

End Recorder.

Import RefVM Recorder.

(** The Java string literal with the characters of [s], all ASCII. *)
Definition java_literal (s : string) : list jchar :=
  map (fun a => Z.of_N (N_of_ascii a)) (list_ascii_of_string s).

(** The text the greeting is expected to be, as Java code would write it. *)
Definition hello_text : list jchar := java_literal "Hello from C++".

(** An invocation's outcome is a reference to a string with text [t]. *)
Definition returns_text (out : option (jstring * JavaVM)) (t : list jchar)
    : Prop :=
  ∃ l vm', out = Some (Ref l, vm') ∧ string_value vm' (Ref l) = Some t.

(** An invocation's outcome is a reference to a string of [n] UTF-16 code
    units whose UTF-8 encoding takes [m] bytes. *)
Definition returns_text_of_length (out : option (jstring * JavaVM))
    (n m : nat) : Prop :=
  ∃ l vm' t, out = Some (Ref l, vm') ∧ string_value vm' (Ref l) = Some t ∧
             length t = n ∧ length (utf8_encode t) = m.

(** Two invocations in sequence, the second on the state the first left. *)
Definition invoke_twice {VM : Type} (env : JNIEnv VM) (this1 this2 : jobject)
    : M VM (jstring * jstring) := fun vm =>
  '(r1, vm1) ← Java_com_example_simplemediaapp_MainActivity_stringFromJNI env this1 vm;
  '(r2, vm2) ← Java_com_example_simplemediaapp_MainActivity_stringFromJNI env this2 vm1;
  Some ((r1, r2), vm2).

(** The two values returned by two invocations in sequence are equal as
    the caller sees them afterwards: both no string, or strings with the
    same text. *)
Definition equal_results (out : option ((jstring * jstring) * JavaVM)) : Prop :=
  ∃ r1 r2 vm2, out = Some ((r1, r2), vm2) ∧
               string_value vm2 r1 = string_value vm2 r2.

(** The state after an invocation differs from the state before in nothing
    but the object the result refers to (and the memory that object
    takes). *)
Definition only_result_allocated (vm : JavaVM)
    (out : option (jstring * JavaVM)) : Prop :=
  ∃ r vm', out = Some (r, vm') ∧
           pending vm' = pending vm ∧
           ∀ l, Ref l ≠ r → heap vm' !! l = heap vm !! l.

(** *** Machines the examples run on *)

(** The activity whose [stringFromJNI] method is being served. *)
Definition activity : jobject := Ref 1%positive.

Definition activity_heap : gmap loc Object :=
  {[ 1%positive := Instance "com.example.simplemediaapp.MainActivity" ]}.

(** Plenty of memory. *)
Definition vm_roomy : JavaVM :=
  {| heap := activity_heap; free := 100; pending := None |}.

(** No memory left. *)
Definition vm_exhausted : JavaVM :=
  {| heap := activity_heap; free := 0; pending := None |}.

(** One code unit short of the greeting. *)
Definition vm_short : JavaVM :=
  {| heap := activity_heap; free := 13; pending := None |}.

(** Room for one greeting, not for two. *)
Definition vm_once : JavaVM :=
  {| heap := activity_heap; free := 20; pending := None |}.

(** An empty heap and nothing to allocate from. *)
Definition vm_empty : JavaVM :=
  {| heap := ∅; free := 0; pending := None |}.

(** One invocation for each handle of the list, in order, each on the state
    the one before it left; the values returned, in that order. *)
Fixpoint invoke_all {VM : Type} (env : JNIEnv VM) (handles : list jobject)
    : M VM (list jstring) := fun vm =>
  match handles with
  | [] => Some ([], vm)
  | this :: rest =>
      '(r, vm1) ← Java_com_example_simplemediaapp_MainActivity_stringFromJNI env this vm;
      '(rs, vm2) ← invoke_all env rest vm1;
      Some (r :: rs, vm2)
  end.

(** [r] refers to a location that was not in use in [vm] and holds the
    greeting in [vm']. *)
Definition fresh_greeting (vm vm' : JavaVM) (r : jstring) : Prop :=
  ∃ l, r = Ref l ∧ heap vm !! l = None ∧
       heap vm' !! l = Some (JavaString hello_text).

(** *** The body, statement by statement

    The function body is two statements.  Control is at one of three
    points: before the declaration on line 12, before the [return] on line
    13, or out of the function. *)
Inductive point : Type :=
| Line12
| Line13
| Returned.

(** The activation frame: where control is, the argument [this], the local
    [hello] (absent before its declaration has run and after it has been
    destroyed on return), the value returned once there is one, and the
    state of the machine behind [env]. *)
Record frame (VM : Type) : Type := {
  pc : point;
  this_arg : jobject;
  hello_local : option std_string;
  return_value : option jstring;
  machine : VM
}.

Arguments pc {VM} _.
Arguments this_arg {VM} _.
Arguments hello_local {VM} _.
Arguments return_value {VM} _.
Arguments machine {VM} _.

(** The frame on entry. *)
Definition enter {VM : Type} (this : jobject) (vm : VM) : frame VM :=
  {| pc := Line12; this_arg := this; hello_local := None;
     return_value := None; machine := vm |}.

(** One statement.  Line 12 initialises [hello] from the literal and
    moves on to line 13.  Line 13 calls [NewStringUTF] on [hello.c_str()]
    and returns the call's value; there is no next frame if the call is
    undefined.  Out of the function there is nothing left to run. *)
Definition step {VM : Type} (env : JNIEnv VM) (f : frame VM)
    : option (frame VM) :=
  match pc f with
  | Line12 =>
      Some {| pc := Line13; this_arg := this_arg f;
              hello_local := Some (basic_string (string_literal "Hello from C++"));
              return_value := return_value f; machine := machine f |}
  | Line13 =>
      hello ← hello_local f;
      '(r, vm') ← JNI.NewStringUTF env (c_str hello) (machine f);
      Some {| pc := Returned; this_arg := this_arg f;
              hello_local := None;
              return_value := Some r; machine := vm' |}
  | Returned => None
  end.

(** [n] statements, one after the other. *)
Fixpoint steps {VM : Type} (env : JNIEnv VM) (n : nat) (f : frame VM)
    : option (frame VM) :=
  match n with
  | O => Some f
  | S n' => f' ← step env f; steps env n' f'
  end.

(** The frame a call that returned [out] leaves behind. *)
Definition returned_frame {VM : Type} (this : jobject) (out : jstring * VM)
    : frame VM :=
  {| pc := Returned; this_arg := this; hello_local := None;
     return_value := Some out.1; machine := out.2 |}.

(** How many statements lie ahead of a control point. *)
Definition statements_left (p : point) : nat :=
  match p with
  | Line12 => 2
  | Line13 => 1
  | Returned => 0
  end.

(** A non-zero 7-bit character. *)
Definition plain_ascii (c : Z) : Prop := 0 < c < 0x80.

(** The values a [jchar] takes. *)
Definition jchar_range (c : Z) : Prop := 0 ≤ c < 0x10000.

(** [f] on every number whose binary digits are those of [prefix]
    followed by [k] more. *)
Fixpoint forall_below (k : nat) (prefix : Z) (f : Z → bool) : bool :=
  match k with
  | O => f prefix
  | S k' => forall_below k' (2 * prefix) f && forall_below k' (2 * prefix + 1) f
  end.

(** Whether the bytes [mutf8_encode_char] gives for [c] pass the tests
    [mutf8_decode] makes on them, in its order, and combine back to [c]. *)
Definition decodes_back (c : jchar) : bool :=
  match mutf8_encode_char c with
  | [b1] => (0 <? b1) && (b1 <? 0x80) && (b1 =? c)
  | [b1; b2] =>
      negb ((0 <? b1) && (b1 <? 0x80)) &&
      (Z.land b1 0xE0 =? 0xC0) &&
      is_continuation b2 &&
      (Z.lor (Z.shiftl (Z.land b1 0x1F) 6) (Z.land b2 0x3F) =? c)
  | [b1; b2; b3] =>
      negb ((0 <? b1) && (b1 <? 0x80)) &&
      negb (Z.land b1 0xE0 =? 0xC0) &&
      (Z.land b1 0xF0 =? 0xE0) &&
      (is_continuation b2 && is_continuation b3) &&
      (Z.lor (Z.shiftl (Z.land b1 0x0F) 12)
         (Z.lor (Z.shiftl (Z.land b2 0x3F) 6) (Z.land b3 0x3F)) =? c)
  | _ => false
  end.

(* ===================================================================== *)
(** ** C strings and the encodings on plain ASCII *)
(* ===================================================================== *)

Section PlainAsciiChar.

Variable c : Z.
Hypothesis c_ascii : plain_ascii c.

Lemma plain_ascii_not_nul : c ≠ NUL.
Proof. unfold plain_ascii, NUL in *. lia. Qed.

Lemma plain_ascii_one_byte : (0 <? c) && (c <? 0x80) = true.
Proof.
  unfold plain_ascii in c_ascii.
  apply andb_true_iff; split; apply Z.ltb_lt; lia.
Qed.

Lemma mutf8_decode_cons_plain_ascii (bs : list char) :
  mutf8_decode (c :: bs) = cons c <$> mutf8_decode bs.
Proof. cbn [mutf8_decode]. rewrite plain_ascii_one_byte. reflexivity. Qed.

Lemma mutf8_encode_char_plain_ascii : mutf8_encode_char c = [c].
Proof. unfold mutf8_encode_char. rewrite plain_ascii_one_byte. reflexivity. Qed.

Lemma plain_ascii_not_high_surrogate : is_high_surrogate c = false.
Proof.
  unfold plain_ascii in c_ascii. unfold is_high_surrogate.
  apply andb_false_iff; left. apply Z.leb_gt. lia.
Qed.

Lemma utf8_encode_code_point_plain_ascii : utf8_encode_code_point c = [c].
Proof.
  unfold plain_ascii in c_ascii. unfold utf8_encode_code_point.
  replace (c <? 0x80) with true by (symmetry; apply Z.ltb_lt; lia).
  reflexivity.
Qed.

End PlainAsciiChar.

Lemma plain_ascii_no_nul (s : list char) :
  Forall plain_ascii s → Forall (λ c, c ≠ NUL) s.
Proof. intros Hs. eapply Forall_impl; [exact Hs | exact plain_ascii_not_nul]. Qed.

Lemma mutf8_decode_plain_ascii (s : list char) :
  Forall plain_ascii s → mutf8_decode s = Some s.
Proof.
  induction 1 as [|c cs Hc _ IH]; [reflexivity|].
  rewrite mutf8_decode_cons_plain_ascii, IH; done.
Qed.

Lemma mutf8_encode_plain_ascii (s : list jchar) :
  Forall plain_ascii s → mutf8_encode s = s.
Proof.
  unfold mutf8_encode. induction 1 as [|c cs Hc _ IH]; [reflexivity|].
  cbn [flat_map]. rewrite IH, mutf8_encode_char_plain_ascii; done.
Qed.

Lemma code_points_plain_ascii (s : list jchar) :
  Forall plain_ascii s → code_points s = s.
Proof.
  induction 1 as [|c cs Hc _ IH]; [reflexivity|].
  cbn [code_points]. destruct cs as [|d cs']; [reflexivity|].
  rewrite plain_ascii_not_high_surrogate by done.
  cbn [andb]. rewrite IH. reflexivity.
Qed.

Lemma utf8_encode_plain_ascii (s : list jchar) :
  Forall plain_ascii s → utf8_encode s = s.
Proof.
  intros Hs. unfold utf8_encode. rewrite code_points_plain_ascii by done.
  induction Hs as [|c cs Hc _ IH]; [reflexivity|].
  cbn [flat_map]. rewrite IH, utf8_encode_code_point_plain_ascii; done.
Qed.

(** *** Modified UTF-8 decoding undoes encoding

    The reference machine decodes; the encoder is only used to state what
    the decoded text is.  That the two agree on every [jchar] is checked
    code unit by code unit and lifted to strings. *)

Lemma forall_below_spec (k : nat) :
  ∀ (prefix : Z) (f : Z → bool),
    forall_below k prefix f = true →
    ∀ c, prefix * 2 ^ Z.of_nat k ≤ c < (prefix + 1) * 2 ^ Z.of_nat k → f c = true.
Proof.
  induction k as [|k IH]; intros prefix f Hall c Hc.
  - cbn in *. assert (c = prefix) as -> by lia. exact Hall.
  - cbn [forall_below] in Hall. apply andb_true_iff in Hall as [Heven Hodd].
    rewrite Nat2Z.inj_succ, Z.pow_succ_r in Hc by lia.
    destruct (Z_lt_le_dec c ((2 * prefix + 1) * 2 ^ Z.of_nat k)).
    + apply (IH _ _ Heven). lia.
    + apply (IH _ _ Hodd). lia.
Qed.

Lemma decodes_back_all : forall_below 16 0 decodes_back = true.
Proof. vm_compute. reflexivity. Qed.

Lemma decodes_back_jchar (c : jchar) : jchar_range c → decodes_back c = true.
Proof.
  intros Hc. apply (forall_below_spec 16 0 _ decodes_back_all).
  unfold jchar_range in Hc. change (2 ^ Z.of_nat 16) with 0x10000. lia.
Qed.

Lemma mutf8_decode_encode_char (c : jchar) (bs : list char) :
  jchar_range c →
  mutf8_decode (mutf8_encode_char c ++ bs) = cons c <$> mutf8_decode bs.
Proof.
  intros Hc. apply decodes_back_jchar in Hc. unfold decodes_back in Hc.
  destruct (mutf8_encode_char c) as [|b1 [|b2 [|b3 [|b4 rest]]]];
    try discriminate Hc.
  - apply andb_true_iff in Hc as [Hone Heq]. apply Z.eqb_eq in Heq. subst b1.
    cbn [app mutf8_decode]. rewrite Hone. reflexivity.
  - repeat (apply andb_true_iff in Hc as [Hc ?]).
    apply negb_true_iff in Hc.
    match goal with H : (_ =? c) = true |- _ => apply Z.eqb_eq in H; subst c end.
    cbn [app mutf8_decode]. rewrite Hc.
    repeat match goal with H : _ = true |- _ => rewrite H; clear H end.
    reflexivity.
  - repeat (apply andb_true_iff in Hc as [Hc ?]).
    apply negb_true_iff in Hc.
    match goal with H : (_ =? c) = true |- _ => apply Z.eqb_eq in H; subst c end.
    match goal with H : negb _ = true |- _ => apply negb_true_iff in H; rename H into Htwo end.
    cbn [app mutf8_decode]. rewrite Hc, Htwo.
    repeat match goal with H : _ = true |- _ => rewrite H; clear H end.
    reflexivity.
Qed.

Lemma mutf8_decode_encode (cs : list jchar) :
  Forall jchar_range cs → mutf8_decode (mutf8_encode cs) = Some cs.
Proof.
  unfold mutf8_encode. induction 1 as [|c cs Hc _ IH]; [reflexivity|].
  cbn [flat_map]. rewrite mutf8_decode_encode_char, IH; done.
Qed.

(** Where the two encodings part: U+0000 and the supplementary planes. *)
Example mutf8_encode_nul :
  mutf8_encode [0] = [0xC0; 0x80] ∧ utf8_encode [0] = [0].
Proof. split; reflexivity. Qed.

Example mutf8_encode_supplementary :
  utf8_encode [0xD83D; 0xDE00] = [0xF0; 0x9F; 0x98; 0x80] ∧
  mutf8_encode [0xD83D; 0xDE00] = [0xED; 0xA0; 0xBD; 0xED; 0xB8; 0x80].
Proof. split; reflexivity. Qed.

Example mutf8_decode_rejects_four_byte_form :
  mutf8_decode [0xF0; 0x9F; 0x98; 0x80] = None.
Proof. reflexivity. Qed.

Lemma until_nul_c_str (s : std_string) :
  Forall (λ c, c ≠ NUL) s → until_nul (c_str s) = s.
Proof.
  unfold c_str. induction 1 as [|c cs Hc _ IH]; [reflexivity|].
  cbn [app until_nul]. apply Z.eqb_neq in Hc. rewrite Hc, IH. reflexivity.
Qed.

Lemma nul_terminated_c_str (s : std_string) : nul_terminated (c_str s) = true.
Proof.
  unfold c_str. induction s as [|c cs IH]; [reflexivity|].
  cbn [app nul_terminated]. rewrite IH. apply orb_true_r.
Qed.

Lemma strlen_c_str (s : std_string) :
  Forall (λ c, c ≠ NUL) s → strlen (c_str s) = size s.
Proof. intros H. unfold strlen, size. rewrite until_nul_c_str; done. Qed.

(** *** The greeting *)

Lemma hello_chars : hello = literal_chars "Hello from C++".
Proof. reflexivity. Qed.

Lemma hello_plain_ascii : Forall plain_ascii hello.
Proof. unfold plain_ascii. repeat constructor. Qed.

Lemma hello_text_hello : hello_text = hello.
Proof. reflexivity. Qed.

Lemma size_hello : size hello = 14%nat.
Proof. reflexivity. Qed.

Lemma NewStringUTF_pre_hello : NewStringUTF_pre (c_str hello) = true.
Proof.
  unfold NewStringUTF_pre. rewrite nul_terminated_c_str.
  rewrite until_nul_c_str by apply plain_ascii_no_nul, hello_plain_ascii.
  rewrite mutf8_decode_plain_ascii by apply hello_plain_ascii.
  apply bool_decide_eq_true. eauto.
Qed.

(** What the reference machine does with the greeting: one outcome when
    the fourteen code units fit, the other when they do not. *)
Lemma NewStringUTF_hello (vm : JavaVM) :
  RefVM.NewStringUTF (c_str hello) vm =
    if decide (14 ≤ free vm)%nat then
      Some (Ref (fresh (dom (heap vm))),
            {| heap := <[fresh (dom (heap vm)) := JavaString hello_text]> (heap vm);
               free := (free vm - 14)%nat;
               pending := pending vm |})
    else
      Some (NULL,
            {| heap := heap vm; free := free vm;
               pending := Some OutOfMemoryError |}).
Proof.
  unfold RefVM.NewStringUTF. rewrite nul_terminated_c_str.
  rewrite until_nul_c_str by apply plain_ascii_no_nul, hello_plain_ascii.
  rewrite mutf8_decode_plain_ascii by apply hello_plain_ascii.
  reflexivity.
Qed.

Lemma stringFromJNI_unfold {VM : Type} (env : JNIEnv VM) (this : jobject) :
  Java_com_example_simplemediaapp_MainActivity_stringFromJNI env this =
    JNI.NewStringUTF env (c_str hello).
Proof. reflexivity. Qed.

Lemma fresh_not_allocated (vm : JavaVM) : heap vm !! fresh (dom (heap vm)) = None.
Proof. apply not_elem_of_dom, is_fresh. Qed.

(** The outcome of an invocation on the reference machine, spelled out. *)
Lemma stringFromJNI_RefVM (vm : JavaVM) (this : jobject) :
  Java_com_example_simplemediaapp_MainActivity_stringFromJNI RefVM.env this vm =
    if decide (14 ≤ free vm)%nat then
      Some (Ref (fresh (dom (heap vm))),
            {| heap := <[fresh (dom (heap vm)) := JavaString hello_text]> (heap vm);
               free := (free vm - 14)%nat;
               pending := pending vm |})
    else
      Some (NULL,
            {| heap := heap vm; free := free vm;
               pending := Some OutOfMemoryError |}).
Proof. rewrite stringFromJNI_unfold. apply NewStringUTF_hello. Qed.

Lemma string_value_fresh (vm : JavaVM) (t : list jchar) (f : nat) (p : option jthrowable) :
  string_value
    {| heap := <[fresh (dom (heap vm)) := JavaString t]> (heap vm);
       free := f; pending := p |}
    (Ref (fresh (dom (heap vm)))) = Some t.
Proof. cbn [string_value heap]. rewrite lookup_insert_eq. reflexivity. Qed.

(* ===================================================================== *)
(** ** The returned text *)
(* ===================================================================== *)

(** C1, as stated, fails: on a machine with no memory left the entry point
    returns no string at all, so the returned value is not the greeting. *)
Lemma stringFromJNI_exhausted_no_text :
  ¬ returns_text
      (Java_com_example_simplemediaapp_MainActivity_stringFromJNI
         RefVM.env activity vm_exhausted)
      hello_text.
Proof.
  intros (l & vm' & Hrun & _).
  rewrite stringFromJNI_RefVM in Hrun. cbn in Hrun. discriminate Hrun.
Qed.

(** C1, amended: every invocation returns, and whenever what it returns is
    not NULL it refers to a string whose text is "Hello from C++", the
    UTF-8 bytes of which are the bytes of the C++ literal, one for one. *)
Theorem stringFromJNI_returns_hello (vm : JavaVM) (this : jobject) :
  ∃ r vm',
    Java_com_example_simplemediaapp_MainActivity_stringFromJNI RefVM.env this vm
      = Some (r, vm') ∧
    (r ≠ NULL →
     ∃ t, string_value vm' r = Some t ∧
          t = java_literal "Hello from C++" ∧
          utf8_encode t = literal_chars "Hello from C++").
Proof.
  rewrite stringFromJNI_RefVM. destruct (decide (14 ≤ free vm)%nat) as [Hfree|Hfree].
  - eexists _, _. split; [reflexivity|]. intros _.
    exists hello_text. split; [apply string_value_fresh|]. split; [reflexivity|].
    rewrite hello_text_hello, utf8_encode_plain_ascii by apply hello_plain_ascii.
    apply hello_chars.
  - eexists _, _. split; [reflexivity|]. intros Hr. destruct Hr. reflexivity.
Qed.

Lemma stringFromJNI_returns_hello_roomy :
  ∃ r vm',
    Java_com_example_simplemediaapp_MainActivity_stringFromJNI
      RefVM.env activity vm_roomy = Some (r, vm') ∧
    r ≠ NULL ∧
    string_value vm' r = Some (java_literal "Hello from C++").
Proof.
  destruct (stringFromJNI_returns_hello vm_roomy activity) as (r & vm' & Hrun & Htext).
  exists r, vm'. split; [exact Hrun|].
  assert (Hr : r ≠ NULL).
  { rewrite stringFromJNI_RefVM in Hrun. cbn in Hrun. injection Hrun as <- _. discriminate. }
  split; [exact Hr|].
  destruct (Htext Hr) as (t & Hv & -> & _). exact Hv.
Defined.

(** C2, as stated, fails: one code unit short of the greeting, the entry
    point returns NULL, which has no length. *)
Lemma stringFromJNI_short_no_length :
  ¬ returns_text_of_length
      (Java_com_example_simplemediaapp_MainActivity_stringFromJNI
         RefVM.env activity vm_short)
      14 14.
Proof.
  intros (l & vm' & t & Hrun & _).
  rewrite stringFromJNI_RefVM in Hrun. cbn in Hrun. discriminate Hrun.
Qed.

(** C2, amended: the [std::string] every invocation builds has size 14,
    and whenever the value returned is not NULL it refers to a string of 14
    UTF-16 code units whose UTF-8 encoding is 14 bytes long. *)
Theorem stringFromJNI_length_14 (vm : JavaVM) (this : jobject) :
  size hello = 14%nat ∧
  ∃ r vm',
    Java_com_example_simplemediaapp_MainActivity_stringFromJNI RefVM.env this vm
      = Some (r, vm') ∧
    (r ≠ NULL →
     ∃ t, string_value vm' r = Some t ∧
          length t = 14%nat ∧ length (utf8_encode t) = 14%nat).
Proof.
  split; [apply size_hello|].
  rewrite stringFromJNI_RefVM. destruct (decide (14 ≤ free vm)%nat) as [Hfree|Hfree].
  - eexists _, _. split; [reflexivity|]. intros _.
    exists hello_text. split; [apply string_value_fresh|].
    rewrite hello_text_hello, utf8_encode_plain_ascii by apply hello_plain_ascii.
    split; apply size_hello.
  - eexists _, _. split; [reflexivity|]. intros Hr. destruct Hr. reflexivity.
Qed.

Lemma stringFromJNI_length_14_roomy :
  ∃ r vm' t,
    Java_com_example_simplemediaapp_MainActivity_stringFromJNI
      RefVM.env NULL vm_roomy = Some (r, vm') ∧
    r ≠ NULL ∧ string_value vm' r = Some t ∧
    length t = 14%nat ∧ length (utf8_encode t) = 14%nat.
Proof.
  destruct (stringFromJNI_length_14 vm_roomy NULL) as (_ & r & vm' & Hrun & Hlen).
  assert (Hr : r ≠ NULL).
  { rewrite stringFromJNI_RefVM in Hrun. cbn in Hrun. injection Hrun as <- _. discriminate. }
  destruct (Hlen Hr) as (t & Hv & Hn & Hm).
  exists r, vm', t. repeat split; assumption.
Defined.

(* ===================================================================== *)
(** ** Repeated invocations and the calling context *)
(* ===================================================================== *)

(** Two invocations in sequence on the reference machine, spelled out for
    the case in which both conversions fit. *)
Lemma invoke_twice_fits (vm : JavaVM) (this1 this2 : jobject) :
  (28 ≤ free vm)%nat →
  let l1 := fresh (dom (heap vm)) in
  let h1 := <[l1 := JavaString hello_text]> (heap vm) in
  let l2 := fresh (dom h1) in
  invoke_twice RefVM.env this1 this2 vm =
    Some ((Ref l1, Ref l2),
          {| heap := <[l2 := JavaString hello_text]> h1;
             free := (free vm - 14 - 14)%nat;
             pending := pending vm |}).
Proof.
  intros Hfree l1 h1 l2. unfold invoke_twice.
  rewrite stringFromJNI_RefVM, decide_True by lia. cbn [mbind option_bind].
  rewrite stringFromJNI_RefVM. cbn [free heap pending].
  rewrite decide_True by lia. reflexivity.
Qed.

(** C3, as stated, fails: with room for one greeting but not for two, the
    first of two invocations in sequence returns the greeting and the
    second returns NULL. *)
Lemma invoke_twice_once_differ :
  ¬ equal_results (invoke_twice RefVM.env activity activity vm_once).
Proof.
  intros (r1 & r2 & vm2 & Hrun & Heq).
  vm_compute in Hrun. injection Hrun as <- <- <-.
  vm_compute in Heq. discriminate Heq.
Qed.

(** C3, amended: the outcome of an invocation is a function of the
    machine's state alone, and two invocations in sequence both return;
    when neither returns NULL, the two values are distinct references to
    strings with the same text, "Hello from C++". *)
Theorem stringFromJNI_twice_same_text (vm : JavaVM) (this1 this2 : jobject) :
  Java_com_example_simplemediaapp_MainActivity_stringFromJNI RefVM.env this1 vm =
    Java_com_example_simplemediaapp_MainActivity_stringFromJNI RefVM.env this2 vm ∧
  ∃ r1 r2 vm2,
    invoke_twice RefVM.env this1 this2 vm = Some ((r1, r2), vm2) ∧
    (r1 ≠ NULL → r2 ≠ NULL →
     r1 ≠ r2 ∧
     string_value vm2 r1 = Some hello_text ∧
     string_value vm2 r2 = Some hello_text).
Proof.
  split; [reflexivity|].
  destruct (decide (28 ≤ free vm)%nat) as [Hboth|Hnot].
  - eexists _, _, _. split; [apply invoke_twice_fits; exact Hboth|]. intros _ _.
    set (l1 := fresh (dom (heap vm))).
    set (h1 := <[l1 := JavaString hello_text]> (heap vm)).
    assert (Hne : fresh (dom h1) ≠ l1).
    { intros Heq. pose proof (is_fresh (dom h1)) as Hfresh. rewrite Heq in Hfresh.
      apply Hfresh. unfold h1. rewrite dom_insert_L. set_solver. }
    split; [congruence|]. split.
    + cbn [string_value heap]. rewrite lookup_insert_ne by exact Hne.
      unfold h1. rewrite lookup_insert_eq. reflexivity.
    + cbn [string_value heap]. rewrite lookup_insert_eq. reflexivity.
  - unfold invoke_twice. rewrite stringFromJNI_RefVM.
    destruct (decide (14 ≤ free vm)%nat) as [Hone|Hnone]; cbn [mbind option_bind].
    + rewrite stringFromJNI_RefVM. cbn [free heap pending].
      rewrite decide_False by lia.
      eexists _, _, _. split; [reflexivity|]. intros _ Hr. destruct Hr. reflexivity.
    + rewrite stringFromJNI_RefVM. cbn [free heap pending].
      rewrite decide_False by lia.
      eexists _, _, _. split; [reflexivity|]. intros Hr. destruct Hr. reflexivity.
Qed.

Lemma stringFromJNI_twice_same_text_roomy :
  ∃ r1 r2 vm2,
    invoke_twice RefVM.env activity NULL vm_roomy = Some ((r1, r2), vm2) ∧
    r1 ≠ NULL ∧ r2 ≠ NULL ∧ r1 ≠ r2 ∧
    string_value vm2 r1 = Some hello_text ∧
    string_value vm2 r2 = Some hello_text.
Proof.
  destruct (stringFromJNI_twice_same_text vm_roomy activity NULL)
    as (_ & r1 & r2 & vm2 & Hrun & Htext).
  assert (Hr : r1 ≠ NULL ∧ r2 ≠ NULL).
  { rewrite invoke_twice_fits in Hrun by (cbn; lia).
    injection Hrun as <- <- _. split; discriminate. }
  destruct Hr as [Hr1 Hr2]. destruct (Htext Hr1 Hr2) as (Hne & Hv1 & Hv2).
  exists r1, r2, vm2. repeat split; assumption.
Defined.

(** C4: the calling-context handle is never read.  Behind any function
    table, the entry point given one handle is the same state transformer
    as the entry point given another, so no two handles can be told apart
    by the value returned, by the state left, or by the calls made. *)
Theorem stringFromJNI_ignores_this
    {VM : Type} (env : JNIEnv VM) (this1 this2 : jobject) :
  Java_com_example_simplemediaapp_MainActivity_stringFromJNI env this1 =
    Java_com_example_simplemediaapp_MainActivity_stringFromJNI env this2 ∧
  ∀ st,
    Java_com_example_simplemediaapp_MainActivity_stringFromJNI (recording env) this1 st =
      Java_com_example_simplemediaapp_MainActivity_stringFromJNI (recording env) this2 st.
Proof. split; [reflexivity|]. intros st. reflexivity. Qed.

(* ===================================================================== *)
(** ** Effects, failure and the calls made *)
(* ===================================================================== *)

(** C5, as stated, fails: an invocation that cannot allocate its string
    allocates nothing and yet changes state the caller sees, for it leaves
    an [OutOfMemoryError] pending where none was. *)
Lemma stringFromJNI_empty_raises :
  ¬ only_result_allocated vm_empty
      (Java_com_example_simplemediaapp_MainActivity_stringFromJNI
         RefVM.env NULL vm_empty).
Proof.
  intros (r & vm' & Hrun & Hpending & _).
  rewrite stringFromJNI_RefVM in Hrun. cbn in Hrun.
  injection Hrun as <- <-. cbn in Hpending. discriminate Hpending.
Qed.

(** C5, amended: no invocation modifies or removes an object that was
    there before it.  An invocation returning a reference changes the state
    in nothing but the string it allocated: the reference is to a location
    not in use before, the heap afterwards is the heap before with the
    greeting at that location, the memory left is less by the string's 14
    code units, and the pending exception is as it was.  An invocation
    returning NULL leaves heap and memory as they were and changes the
    pending exception alone, to [OutOfMemoryError]. *)
Theorem stringFromJNI_frame (vm : JavaVM) (this : jobject) :
  ∃ r vm',
    Java_com_example_simplemediaapp_MainActivity_stringFromJNI RefVM.env this vm
      = Some (r, vm') ∧
    (∀ l o, heap vm !! l = Some o → heap vm' !! l = Some o) ∧
    (r ≠ NULL →
     ∃ l, r = Ref l ∧ heap vm !! l = None ∧
          heap vm' = <[l := JavaString hello_text]> (heap vm) ∧
          free vm' = (free vm - 14)%nat ∧
          pending vm' = pending vm) ∧
    (r = NULL →
     heap vm' = heap vm ∧ free vm' = free vm ∧
     pending vm' = Some OutOfMemoryError).
Proof.
  rewrite stringFromJNI_RefVM. destruct (decide (14 ≤ free vm)%nat) as [Hfree|Hfree].
  - eexists _, _. split; [reflexivity|]. cbn [heap free pending]. split; [|split].
    + intros l o Hl. rewrite lookup_insert_ne; [exact Hl|].
      intros <-. rewrite fresh_not_allocated in Hl. discriminate Hl.
    + intros _. eexists. split; [reflexivity|].
      split; [apply fresh_not_allocated|]. repeat split.
    + intros Hr. discriminate Hr.
  - eexists _, _. split; [reflexivity|]. cbn [heap free pending]. split; [|split].
    + intros l o Hl. exact Hl.
    + intros Hr. destruct Hr. reflexivity.
    + intros _. repeat split.
Qed.

Lemma stringFromJNI_frame_roomy :
  ∃ r vm' l,
    Java_com_example_simplemediaapp_MainActivity_stringFromJNI
      RefVM.env activity vm_roomy = Some (r, vm') ∧
    r = Ref l ∧ heap vm_roomy !! l = None ∧
    heap vm' = <[l := JavaString hello_text]> (heap vm_roomy) ∧
    heap vm' !! 1%positive = Some (Instance "com.example.simplemediaapp.MainActivity") ∧
    pending vm' = pending vm_roomy.
Proof.
  destruct (stringFromJNI_frame vm_roomy activity) as (r & vm' & Hrun & Hold & Hnew & _).
  assert (Hr : r ≠ NULL).
  { rewrite stringFromJNI_RefVM in Hrun. cbn in Hrun. injection Hrun as <- _. discriminate. }
  destruct (Hnew Hr) as (l & -> & Hl & Hheap & _ & Hpending).
  exists (Ref l), vm', l. repeat split; try assumption.
  apply Hold. reflexivity.
Defined.

(** C6: on the reference machine the entry point always returns (no call
    it makes is outside what JNI defines), and it returns NULL exactly when
    the machine cannot allocate the string's 14 code units.  In that case
    the caller receives NULL together with the state as [NewStringUTF] left
    it, [OutOfMemoryError] pending and the heap as before.  Either way the
    only call recorded is the conversion: the entry point neither checks
    nor clears the exception, and the value and state it hands back are
    those the conversion produced. *)
Theorem stringFromJNI_fails_only_on_allocation (vm : JavaVM) (this : jobject) :
  ∃ r vm',
    Java_com_example_simplemediaapp_MainActivity_stringFromJNI RefVM.env this vm
      = Some (r, vm') ∧
    (r = NULL ↔ (free vm < length hello_text)%nat) ∧
    (r = NULL → pending vm' = Some OutOfMemoryError ∧ heap vm' = heap vm) ∧
    RefVM.NewStringUTF (c_str hello) vm = Some (r, vm') ∧
    Java_com_example_simplemediaapp_MainActivity_stringFromJNI
      (recording RefVM.env) this (vm, [])
      = Some (r, (vm', [NewStringUTF_call (c_str hello)])).
Proof.
  pose proof (NewStringUTF_hello vm) as Hcall.
  unfold Java_com_example_simplemediaapp_MainActivity_stringFromJNI.
  fold hello. cbn [JNI.NewStringUTF recording RefVM.env]. unfold logged.
  cbn [fst snd]. rewrite Hcall.
  change (length hello_text) with 14%nat.
  destruct (decide (14 ≤ free vm)%nat) as [Hfree|Hfree].
  - eexists _, _. split; [reflexivity|]. split; [|split; [|split; reflexivity]].
    + split; [discriminate | lia].
    + discriminate.
  - eexists _, _. split; [reflexivity|]. split; [|split; [|split; reflexivity]].
    + split; [lia | reflexivity].
    + intros _. split; reflexivity.
Qed.

Lemma stringFromJNI_fails_only_on_allocation_short :
  Java_com_example_simplemediaapp_MainActivity_stringFromJNI
    RefVM.env activity vm_short
    = Some (NULL, {| heap := activity_heap; free := 13;
                     pending := Some OutOfMemoryError |}).
Proof.
  destruct (stringFromJNI_fails_only_on_allocation vm_short activity)
    as (r & vm' & Hrun & Hnull & Hexn & _).
  assert (Hr : r = NULL) by (apply Hnull; cbn; lia).
  destruct (Hexn Hr) as [Hpending Hheap].
  rewrite Hrun. subst r. f_equal. f_equal.
  rewrite stringFromJNI_RefVM in Hrun. cbn in Hrun. injection Hrun as <-. reflexivity.
Defined.

(** Every statement moves control one point forward, whatever the frame
    holds and whatever stands behind [env]. *)
Lemma step_advances {VM : Type} (env : JNIEnv VM) (f f' : frame VM) :
  step env f = Some f' →
  (pc f = Line12 ∧ pc f' = Line13) ∨ (pc f = Line13 ∧ pc f' = Returned).
Proof.
  unfold step. destruct (pc f) eqn:Hpc; [| |discriminate].
  - intros [= <-]. left. split; reflexivity.
  - destruct (hello_local f) as [h|]; cbn [mbind option_bind]; [|discriminate].
    destruct (JNI.NewStringUTF env (c_str h) (machine f)) as [[r vm']|];
      cbn [mbind option_bind]; [|discriminate].
    intros [= <-]. right. split; reflexivity.
Qed.

Lemma steps_statements_left {VM : Type} (env : JNIEnv VM) (n : nat) :
  ∀ f f' : frame VM,
    steps env n f = Some f' →
    (statements_left (pc f') + n = statements_left (pc f))%nat.
Proof.
  induction n as [|n IH]; intros f f'; cbn [steps].
  - intros [= <-]. lia.
  - destruct (step env f) as [f1|] eqn:Hstep; cbn [mbind option_bind]; [|discriminate].
    intros Hrest. apply IH in Hrest.
    destruct (step_advances _ _ _ Hstep) as [[H0 H1]|[H0 H1]];
      rewrite H0; rewrite H1 in Hrest; cbn [statements_left] in *; lia.
Qed.

(** The two statements, run from the entry, do what the entry point does. *)
Lemma steps_enter {VM : Type} (env : JNIEnv VM) (this : jobject) (vm : VM) :
  steps env 2 (enter this vm) =
    returned_frame this
      <$> Java_com_example_simplemediaapp_MainActivity_stringFromJNI env this vm.
Proof.
  rewrite stringFromJNI_unfold. cbn [steps step enter pc hello_local machine
    this_arg return_value mbind option_bind]. fold hello.
  destruct (JNI.NewStringUTF env (c_str hello) vm) as [[r vm']|]; reflexivity.
Qed.



(** C9: every character of the string the entry point builds is a non-zero
    7-bit value.  Hence the array [c_str()] yields ends in a NUL and has
    none before it (its [strlen] is the string's [size]); the characters
    are well-formed modified UTF-8; the text they decode to has them both
    as its UTF-8 and as its modified UTF-8 encoding; and the argument
    passed to [NewStringUTF] meets that function's precondition. *)
Theorem hello_c_str_well_formed :
  Forall (λ c, 0 < c < 0x80) hello ∧
  nul_terminated (c_str hello) = true ∧
  until_nul (c_str hello) = hello ∧
  strlen (c_str hello) = size hello ∧
  (∃ text, mutf8_decode hello = Some text ∧
           utf8_encode text = hello ∧
           mutf8_encode text = hello) ∧
  NewStringUTF_pre (c_str hello) = true.
Proof.
  pose proof hello_plain_ascii as Hascii.
  pose proof (plain_ascii_no_nul _ Hascii) as Hnul.
  split; [exact Hascii|].
  split; [apply nul_terminated_c_str|].
  split; [apply until_nul_c_str, Hnul|].
  split; [apply strlen_c_str, Hnul|].
  split; [|apply NewStringUTF_pre_hello].
  exists hello. split; [apply mutf8_decode_plain_ascii, Hascii|].
  split; [apply utf8_encode_plain_ascii, Hascii|apply mutf8_encode_plain_ascii, Hascii].
Qed.

(** C10: behind any function table and from any state, what the entry
    point does is what the single call [NewStringUTF (c_str hello)] does.
    It is undefined only if that call is; otherwise the record of calls
    grows by that one call, and the value returned and the state left are
    the call's own. *)
Theorem stringFromJNI_single_call
    {VM : Type} (env : JNIEnv VM) (this : jobject) (vm : VM) (calls : list JNICall) :
  Java_com_example_simplemediaapp_MainActivity_stringFromJNI
    (recording env) this (vm, calls)
    = (λ out : jstring * VM,
         (out.1, (out.2, calls ++ [NewStringUTF_call (c_str hello)])))
        <$> JNI.NewStringUTF env (c_str hello) vm
  ∧
  Java_com_example_simplemediaapp_MainActivity_stringFromJNI env this vm
    = JNI.NewStringUTF env (c_str hello) vm.
Proof.
  split; [|reflexivity].
  unfold Java_com_example_simplemediaapp_MainActivity_stringFromJNI. fold hello.
  cbn [JNI.NewStringUTF recording]. unfold logged. cbn [fst snd].
  destruct (JNI.NewStringUTF env (c_str hello) vm) as [[r vm']|]; reflexivity.
Qed.

(* ===================================================================== *)
(** ** Any virtual machine that keeps the contract of [NewStringUTF] *)
(* ===================================================================== *)

(** The text the entry point returns does not depend on how the reference
    machine lays out its heap or counts its memory: it is the same behind
    every function table whose [NewStringUTF] is defined on well-formed
    arguments and, when it returns a reference, has made it refer to the
    decoded text. *)
Section AnyVM.

Context {VM : Type} (env : JNIEnv VM).

(** How the text behind a reference is read off the machine's state. *)
Variable text : VM → jobject → option (list jchar).

Hypothesis NewStringUTF_defined :
  ∀ bytes vm, NewStringUTF_pre bytes = true →
              is_Some (JNI.NewStringUTF env bytes vm).

Hypothesis NewStringUTF_text :
  ∀ bytes vm r vm',
    NewStringUTF_pre bytes = true →
    JNI.NewStringUTF env bytes vm = Some (r, vm') →
    r ≠ NULL →
    text vm' r = mutf8_decode (until_nul bytes).

(** X1: behind any function table whose [NewStringUTF] is defined on every
    well-formed argument and makes the reference it returns refer to the
    decoded text, every invocation of the entry point returns, and a value
    returned that is not NULL refers to the text "Hello from C++". *)
Lemma stringFromJNI_any_vm (vm : VM) (this : jobject) :
  ∃ r vm',
    Java_com_example_simplemediaapp_MainActivity_stringFromJNI env this vm
      = Some (r, vm') ∧
    (r ≠ NULL → text vm' r = Some hello_text).
Proof.
  rewrite stringFromJNI_unfold.
  destruct (NewStringUTF_defined (c_str hello) vm NewStringUTF_pre_hello)
    as [[r vm'] Hcall].
  exists r, vm'. split; [exact Hcall|]. intros Hr.
  rewrite (NewStringUTF_text _ _ _ _ NewStringUTF_pre_hello Hcall Hr).
  rewrite until_nul_c_str by apply plain_ascii_no_nul, hello_plain_ascii.
  rewrite mutf8_decode_plain_ascii by apply hello_plain_ascii.
  rewrite hello_text_hello. reflexivity.
Qed.

End AnyVM.

(** The reference machine keeps that contract. *)
Lemma RefVM_NewStringUTF_defined (bytes : list char) (vm : JavaVM) :
  NewStringUTF_pre bytes = true →
  is_Some (JNI.NewStringUTF RefVM.env bytes vm).
Proof.
  unfold NewStringUTF_pre. intros Hpre.
  apply andb_true_iff in Hpre as [Hnul Hdec].
  apply bool_decide_eq_true in Hdec as [chars Hchars].
  cbn [JNI.NewStringUTF RefVM.env]. unfold RefVM.NewStringUTF.
  rewrite Hnul, Hchars. cbn [mbind option_bind]. case_decide; eauto.
Qed.

Lemma RefVM_NewStringUTF_text
    (bytes : list char) (vm : JavaVM) (r : jstring) (vm' : JavaVM) :
  NewStringUTF_pre bytes = true →
  JNI.NewStringUTF RefVM.env bytes vm = Some (r, vm') →
  r ≠ NULL →
  string_value vm' r = mutf8_decode (until_nul bytes).
Proof.
  unfold NewStringUTF_pre. intros Hpre.
  apply andb_true_iff in Hpre as [Hnul Hdec].
  apply bool_decide_eq_true in Hdec as [chars Hchars].
  cbn [JNI.NewStringUTF RefVM.env]. unfold RefVM.NewStringUTF.
  rewrite Hnul, Hchars. cbn [mbind option_bind].
  case_decide; intros [= <- <-] Hr; [|done].
  apply string_value_fresh.
Qed.

Lemma stringFromJNI_any_vm_RefVM_roomy :
  ∃ r vm',
    Java_com_example_simplemediaapp_MainActivity_stringFromJNI
      RefVM.env activity vm_roomy = Some (r, vm') ∧
    (r ≠ NULL → string_value vm' r = Some hello_text).
Proof.
  exact (stringFromJNI_any_vm RefVM.env string_value
           RefVM_NewStringUTF_defined RefVM_NewStringUTF_text vm_roomy activity).
Defined.

(* ===================================================================== *)
(** ** Many invocations in sequence *)
(* ===================================================================== *)

Lemma stringFromJNI_recording
    {VM : Type} (env : JNIEnv VM) (this : jobject) (vm : VM) (calls : list JNICall) :
  Java_com_example_simplemediaapp_MainActivity_stringFromJNI
    (recording env) this (vm, calls)
    = (λ out : jstring * VM,
         (out.1, (out.2, calls ++ [NewStringUTF_call (c_str hello)])))
        <$> JNI.NewStringUTF env (c_str hello) vm.
Proof.
  unfold Java_com_example_simplemediaapp_MainActivity_stringFromJNI. fold hello.
  cbn [JNI.NewStringUTF recording]. unfold logged. cbn [fst snd].
  destruct (JNI.NewStringUTF env (c_str hello) vm) as [[r vm']|]; reflexivity.
Qed.

(** X2: behind any function table, a sequence of invocations makes one
    call of [NewStringUTF] per invocation, each with the same array, and no
    other call: run through the recorder, the sequence returns the values
    and leaves the state it does without it, and the record has grown by as
    many copies of that call as there were invocations. *)
Theorem invoke_all_one_call_each
    {VM : Type} (env : JNIEnv VM) (handles : list jobject)
    (vm : VM) (calls : list JNICall) :
  invoke_all (recording env) handles (vm, calls)
    = (λ out : list jstring * VM,
         (out.1,
          (out.2,
           calls ++ replicate (length handles) (NewStringUTF_call (c_str hello)))))
        <$> invoke_all env handles vm.
Proof.
  revert vm calls. induction handles as [|this rest IH]; intros vm calls.
  - cbn. rewrite app_nil_r. reflexivity.
  - cbn [invoke_all]. rewrite stringFromJNI_recording, stringFromJNI_unfold.
    destruct (JNI.NewStringUTF env (c_str hello) vm) as [[r vm1]|];
      cbn [fmap option_fmap option_map mbind option_bind fst snd]; [|reflexivity].
    rewrite IH.
    destruct (invoke_all env rest vm1) as [[rs vm2]|];
      cbn [fmap option_fmap option_map mbind option_bind fst snd length replicate];
      [|reflexivity].
    rewrite <- app_assoc. reflexivity.
Qed.

(** X3: on the reference machine, a sequence of invocations for which the
    memory suffices (14 code units each) returns as many values as there
    were invocations, no two of them the same, each a reference to a
    location not in use before the sequence and holding the greeting after
    it.  Every object that was there before is still there unchanged, the
    memory left is less by 14 for each invocation, and the pending
    exception is as it was. *)
Theorem invoke_all_fresh_greetings (handles : list jobject) (vm : JavaVM) :
  (14 * length handles ≤ free vm)%nat →
  ∃ rs vm',
    invoke_all RefVM.env handles vm = Some (rs, vm') ∧
    length rs = length handles ∧
    NoDup rs ∧
    Forall (fresh_greeting vm vm') rs ∧
    (∀ l o, heap vm !! l = Some o → heap vm' !! l = Some o) ∧
    free vm' = (free vm - 14 * length handles)%nat ∧
    pending vm' = pending vm.
Proof.
  revert vm. induction handles as [|this rest IH]; intros vm Hfree.
  - exists [], vm. cbn. repeat split; try constructor; try done. lia.
  - cbn [length] in Hfree. cbn [invoke_all].
    rewrite stringFromJNI_RefVM, decide_True by lia. cbn [mbind option_bind].
    set (l1 := fresh (dom (heap vm))).
    set (vm1 := {| heap := <[l1 := JavaString hello_text]> (heap vm);
                   free := (free vm - 14)%nat; pending := pending vm |}).
    destruct (IH vm1) as (rs & vm' & Hrun & Hlen & Hnodup & Hall & Hkeep & Hleft & Hpend);
      [cbn; lia|].
    rewrite Hrun. cbn [mbind option_bind].
    exists (Ref l1 :: rs), vm'. split; [reflexivity|].
    assert (Hl1 : heap vm' !! l1 = Some (JavaString hello_text)).
    { apply Hkeep. cbn. apply lookup_insert_eq. }
    split; [cbn; congruence|]. split; [|split; [|split; [|split]]].
    + apply NoDup_cons. split; [|exact Hnodup].
      intros Hin. rewrite Forall_forall in Hall.
      destruct (Hall _ Hin) as (l & [= <-] & Hnone & _).
      cbn in Hnone. rewrite lookup_insert_eq in Hnone. discriminate Hnone.
    + constructor.
      * exists l1. split; [reflexivity|]. split; [apply fresh_not_allocated|exact Hl1].
      * eapply Forall_impl; [exact Hall|].
        intros r (l & -> & Hnone & Hsome). exists l. split; [reflexivity|].
        split; [|exact Hsome]. cbn in Hnone.
        apply lookup_insert_None in Hnone as [Hnone _]. exact Hnone.
    + intros l o Hl. apply Hkeep. cbn. rewrite lookup_insert_ne; [exact Hl|].
      intros <-. unfold l1 in Hl. rewrite fresh_not_allocated in Hl. discriminate Hl.
    + rewrite Hleft. cbn. lia.
    + rewrite Hpend. reflexivity.
Qed.

Lemma invoke_all_fresh_greetings_roomy :
  (14 * length [activity; NULL; activity] ≤ free vm_roomy)%nat ∧
  ∃ rs vm',
    invoke_all RefVM.env [activity; NULL; activity] vm_roomy = Some (rs, vm') ∧
    length rs = 3%nat ∧
    NoDup rs ∧
    Forall (fresh_greeting vm_roomy vm') rs ∧
    (∀ l o, heap vm_roomy !! l = Some o → heap vm' !! l = Some o) ∧
    free vm' = 58%nat ∧
    pending vm' = None.
Proof.
  assert (Hfree : (14 * length [activity; NULL; activity] ≤ free vm_roomy)%nat)
    by (cbn; lia).
  split; [exact Hfree|].
  exact (invoke_all_fresh_greetings [activity; NULL; activity] vm_roomy Hfree).
Defined.
